(** * GitHubClient: a verification model of [github_client.py]

    The module is a thin adapter over the PyGithub library.  Each of its
    five coroutines is embedded below as a function of the remote library's
    answers.  The Python run time the code leans on (exceptions and their
    classes, [str]/[bytes], [bytes.decode], [base64.b64decode],
    [datetime.isoformat], f-string rendering of integers) is modelled first,
    then the remote objects, then the client itself, then the theorems. *)

From Stdlib Require Import ZArith List String Ascii Strings.Byte Bool Lia.
From Stdlib Require Import DecimalString.
From Stdlib Require Import Floats.SpecFloat.
Import ListNotations.

Local Open Scope string_scope.
Local Open Scope Z_scope.

(** ** Python run time *)

(** A Python [str] is kept as the Rocq string of its UTF-8 encoding; a
    Python [bytes] object is a list of bytes. *)
Definition bytes := list byte.

(** An attribute that [hasattr] may find missing on a remote object. *)
Inductive attr (A : Type) : Type :=
| Missing : attr A
| Has : A -> attr A.
Arguments Missing {A}.
Arguments Has {A} _.

Definition hasattr {A : Type} (a : attr A) : bool :=
  match a with Has _ => true | Missing => false end.

(** Truth value of an [Optional[str]]: [None] and the empty string are
    false, every other string is true. *)
Definition truthy (s : option string) : bool :=
  match s with
  | None => false
  | Some EmptyString => false
  | Some (String _ _) => true
  end.

(** [str(n)] for an integer, as an f-string renders it. *)
Definition str_of_int (n : Z) : string := NilZero.string_of_int (Z.to_int n).

(** [needle in haystack] for strings. *)
Fixpoint contains (needle haystack : string) : bool :=
  String.prefix needle haystack ||
  match haystack with
  | EmptyString => false
  | String _ rest => contains needle rest
  end.

(** *** Exceptions

    The classes below are the ones the module and the libraries under it
    raise; all of them descend from [Exception].  System-exiting
    conditions (interrupts) are not raised by a call and stay outside the
    model. *)
Inductive exn_class : Type :=
| ExceptionC
| GithubExceptionC
| UnknownObjectExceptionC
| BadCredentialsExceptionC
| RateLimitExceededExceptionC
| ValueErrorC
| UnicodeDecodeErrorC
| BinasciiErrorC
| TypeErrorC
| AttributeErrorC
| OSErrorC
| ConnectionErrorC.

Scheme Equality for exn_class.

(** Direct base class. *)
Definition base (c : exn_class) : option exn_class :=
  match c with
  | ExceptionC => None
  | GithubExceptionC => Some ExceptionC
  | UnknownObjectExceptionC => Some GithubExceptionC
  | BadCredentialsExceptionC => Some GithubExceptionC
  | RateLimitExceededExceptionC => Some GithubExceptionC
  | ValueErrorC => Some ExceptionC
  | UnicodeDecodeErrorC => Some ValueErrorC
  | BinasciiErrorC => Some ValueErrorC
  | TypeErrorC => Some ExceptionC
  | AttributeErrorC => Some ExceptionC
  | OSErrorC => Some ExceptionC
  | ConnectionErrorC => Some OSErrorC
  end.

Fixpoint issubclass_fuel (fuel : nat) (c d : exn_class) : bool :=
  exn_class_beq c d ||
  match fuel with
  | O => false
  | S k => match base c with
           | Some b => issubclass_fuel k b d
           | None => false
           end
  end.

(** The hierarchy is three levels deep. *)
Definition issubclass (c d : exn_class) : bool := issubclass_fuel 3 c d.

(** An exception instance: its class and what [str(e)] gives. *)
Record exn : Type := mkExn { exc_class : exn_class; exc_str : string }.

Definition isinstance (e : exn) (d : exn_class) : bool :=
  issubclass (exc_class e) d.

Inductive result (A : Type) : Type :=
| Ok : A -> result A
| Raise : exn -> result A.
Arguments Ok {A} _.
Arguments Raise {A} _.

(** *** Computations

    A computation yields the calls it made outside the module (to the
    remote API and to the decoders of the standard library), in order,
    and how it ended. *)
Inductive Call : Type :=
| GetRepo (full_name : string)
| GetContents (path : string) (ref : option string)
| GetRateLimit
| SearchCode (query : string)
| B64Decode
| DecodeUtf8.

Definition Py (A : Type) : Type := (list Call * result A)%type.

Definition ret {A : Type} (a : A) : Py A := ([], Ok a).

Definition raise {A : Type} (e : exn) : Py A := ([], Raise e).

Definition bind {A B : Type} (m : Py A) (f : A -> Py B) : Py B :=
  match m with
  | (l, Ok a) => let (l', r) := f a in ((l ++ l')%list, r)
  | (l, Raise e) => (l, Raise e)
  end.

(** Perform the outside call [c], whose outcome is [r]. *)
Definition call {A : Type} (c : Call) (r : result A) : Py A := ([c], r).

(** [try: m except cls as e: handler e]. *)
Definition try_except {A : Type} (m : Py A) (cls : exn_class)
    (handler : exn -> Py A) : Py A :=
  match m with
  | (l, Ok a) => (l, Ok a)
  | (l, Raise e) =>
      if isinstance e cls
      then let (l', r) := handler e in ((l ++ l')%list, r)
      else (l, Raise e)
  end.

Definition calls {A : Type} (m : Py A) : list Call := fst m.
Definition outcome {A : Type} (m : Py A) : result A := snd m.

Declare Scope py_scope.
Delimit Scope py_scope with py.
Notation "x <- m ;; k" := (bind m (fun x => k))
  (at level 61, m at next level, right associativity) : py_scope.
Notation "'try' m 'except' cls 'as' e '=>' h" :=
  (try_except m cls (fun e => h))
  (at level 62, m at level 61, e name, h at level 61) : py_scope.

(** *** [bytes.decode('utf-8')]

    Strict decoding: the well-formed byte sequences are those of the
    Unicode standard (no overlong forms, no surrogates, nothing above
    U+10FFFF). *)
Definition byte_val (b : byte) : Z := Z.of_N (Byte.to_N b).

Definition in_range (lo hi x : Z) : bool := (lo <=? x) && (x <=? hi).

Definition is_cont (b : byte) : bool := in_range 128 191 (byte_val b).

Fixpoint utf8_valid (bs : list byte) : bool :=
  match bs with
  | [] => true
  | b0 :: r0 =>
      let v0 := byte_val b0 in
      if v0 <=? 127 then utf8_valid r0
      else if in_range 194 223 v0 then
        match r0 with
        | b1 :: r1 => is_cont b1 && utf8_valid r1
        | _ => false
        end
      else if in_range 224 239 v0 then
        match r0 with
        | b1 :: b2 :: r2 =>
            let v1 := byte_val b1 in
            (if v0 =? 224 then in_range 160 191 v1
             else if v0 =? 237 then in_range 128 159 v1
             else in_range 128 191 v1)
            && is_cont b2 && utf8_valid r2
        | _ => false
        end
      else if in_range 240 244 v0 then
        match r0 with
        | b1 :: b2 :: b3 :: r3 =>
            let v1 := byte_val b1 in
            (if v0 =? 240 then in_range 144 191 v1
             else if v0 =? 244 then in_range 128 143 v1
             else in_range 128 191 v1)
            && is_cont b2 && is_cont b3 && utf8_valid r3
        | _ => false
        end
      else false
  end.

Definition UnicodeDecodeError : exn :=
  mkExn UnicodeDecodeErrorC "'utf-8' codec can't decode bytes".

Definition decode_utf8 (bs : bytes) : Py string :=
  call DecodeUtf8
    (if utf8_valid bs then Ok (string_of_list_byte bs)
     else Raise UnicodeDecodeError).

(** *** [base64.b64decode]

    The standard library's decoder in its default, lenient mode: the input
    must be ASCII; characters outside the alphabet are skipped; a padding
    sequence that completes a quad ends the decoding; a quad left open at
    the end of the input is an error. *)
Definition b64_value (c : Z) : option Z :=
  if in_range 65 90 c then Some (c - 65)
  else if in_range 97 122 c then Some (c - 71)
  else if in_range 48 57 c then Some (c + 4)
  else if c =? 43 then Some 62
  else if c =? 47 then Some 63
  else None.

Definition byte_of_Z (z : Z) : byte :=
  match Byte.of_N (Z.to_N (z mod 256)) with
  | Some b => b
  | None => x00
  end.

Definition BinasciiError (msg : string) : exn := mkExn BinasciiErrorC msg.

Fixpoint a2b_base64 (data : list byte) (quad_pos leftchar pads : Z)
    (out : bytes) : result bytes :=
  match data with
  | [] =>
      if quad_pos =? 0 then Ok out
      else if quad_pos =? 1 then
        Raise (BinasciiError
          ("Invalid base64-encoded string: number of data characters ("
           ++ str_of_int (Z.of_nat (List.length out) / 3 * 4 + 1)
           ++ ") cannot be 1 more than a multiple of 4"))
      else Raise (BinasciiError "Incorrect padding")
  | b :: rest =>
      let c := byte_val b in
      if c =? 61 then
        if 2 <=? quad_pos then
          if 4 <=? quad_pos + (pads + 1) then Ok out
          else a2b_base64 rest quad_pos leftchar (pads + 1) out
        else a2b_base64 rest quad_pos leftchar pads out
      else
        match b64_value c with
        | None => a2b_base64 rest quad_pos leftchar pads out
        | Some v =>
            if quad_pos =? 0 then a2b_base64 rest 1 v 0 out
            else if quad_pos =? 1 then
              a2b_base64 rest 2 (Z.land v 15) 0
                (out ++ [byte_of_Z (Z.lor (Z.shiftl leftchar 2) (Z.shiftr v 4))])%list
            else if quad_pos =? 2 then
              a2b_base64 rest 3 (Z.land v 3) 0
                (out ++ [byte_of_Z (Z.lor (Z.shiftl leftchar 4) (Z.shiftr v 2))])%list
            else
              a2b_base64 rest 0 0 0
                (out ++ [byte_of_Z (Z.lor (Z.shiftl leftchar 6) v)])%list
        end
  end.

Definition is_ascii (s : string) : bool :=
  forallb (fun b => byte_val b <=? 127) (list_byte_of_string s).

Definition b64decode (s : option string) : Py bytes :=
  call B64Decode
    match s with
    | None =>
        Raise (mkExn TypeErrorC
          "argument should be a bytes-like object or ASCII string, not 'NoneType'")
    | Some s =>
        if is_ascii s then a2b_base64 (list_byte_of_string s) 0 0 0 []
        else Raise (mkExn ValueErrorC
               "string argument should contain only ASCII characters")
    end.

(** *** [datetime.isoformat] *)
Record datetime : Type := mkDatetime {
  year : Z; month : Z; day : Z;
  hour : Z; minute : Z; second : Z; microsecond : Z;
  (** offset from UTC in seconds, for an aware value *)
  utcoffset : option Z
}.

Fixpoint zeros (n : nat) : string :=
  match n with O => "" | S k => String "0" (zeros k) end.

(** ["%0<width>d" % n] for a natural [n]. *)
Definition pad (width : nat) (n : Z) : string :=
  let s := str_of_int n in
  zeros (width - String.length s) ++ s.

Definition format_offset (off : Z) : string :=
  let sign := if off <? 0 then "-" else "+" in
  let a := Z.abs off in
  sign ++ pad 2 (a / 3600) ++ ":" ++ pad 2 (a mod 3600 / 60)
  ++ (if a mod 60 =? 0 then "" else ":" ++ pad 2 (a mod 60)).

Definition isoformat (d : datetime) : string :=
  pad 4 (year d) ++ "-" ++ pad 2 (month d) ++ "-" ++ pad 2 (day d)
  ++ "T" ++ pad 2 (hour d) ++ ":" ++ pad 2 (minute d) ++ ":" ++ pad 2 (second d)
  ++ (if microsecond d =? 0 then "" else "." ++ pad 6 (microsecond d))
  ++ match utcoffset d with
     | None => ""
     | Some off => format_offset off
     end.

(** ** Remote objects (PyGithub) *)

Module ContentFile.
Record t : Type := mk {
  name : string;
  path : string;
  type : string;
  size : Z;
  decoded_content : attr (option bytes);
  content : attr (option string)
}.
End ContentFile.

(** What [Repository.get_contents] returns: a list for a directory, a
    single object otherwise. *)
Inductive Contents : Type :=
| ContentList (l : list ContentFile.t)
| ContentSingle (f : ContentFile.t).

Module Repository.
Record t : Type := mk {
  name : string;
  full_name : string;
  description : option string;
  owner_login : string;
  private : bool;
  fork : bool;
  created_at : option datetime;
  updated_at : option datetime;
  pushed_at : option datetime;
  size : Z;
  stargazers_count : Z;
  watchers_count : Z;
  forks_count : Z;
  open_issues_count : Z;
  default_branch : string;
  language : option string;
  (** absent, or present and then possibly [None] *)
  topics : attr (option (list string));
  (** [get_contents path ref]; [ref = None] when the argument is left out *)
  get_contents : string -> option string -> result Contents
}.
End Repository.

(** One quota of the rate-limit answer; [remaining] may be unset. *)
Module Rate.
Record t : Type := mk { remaining : option Z }.
End Rate.

(** What [get_rate_limit] returns; the [core] attribute exists on some
    versions of the library's answer and not on others. *)
Module RateLimit.
Record t : Type := mk { core : attr Rate.t }.
End RateLimit.

Module CodeResult.
Record t : Type := mk {
  name : string;
  path : string;
  html_url : string;
  score : attr spec_float;
  size : attr Z;
  repository_full_name : string;
  repository_language : attr (option string)
}.
End CodeResult.

Module Github.
Record t : Type := mk {
  get_repo : string -> result Repository.t;
  get_rate_limit : result RateLimit.t;
  search_code : string -> result (list CodeResult.t)
}.
End Github.

(** ** Records the client returns (the Python dicts) *)

Module ItemData.
Record t : Type := mk {
  name : string;
  path : string;
  type : string;
  size : option Z
}.
Definition set_size (d : t) (s : option Z) : t :=
  mk (name d) (path d) (type d) s.
End ItemData.

Module Structure.
Record t : Type := mk { path : string; items : list ItemData.t }.
End Structure.

Module FileData.
Record t : Type := mk {
  path : string;
  content : string;
  size : Z;
  encoding : string
}.
End FileData.

Module RepoInfo.
Record t : Type := mk {
  name : string;
  full_name : string;
  description : option string;
  owner : string;
  private : bool;
  fork : bool;
  created_at : option string;
  updated_at : option string;
  pushed_at : option string;
  size : Z;
  stargazers_count : Z;
  watchers_count : Z;
  forks_count : Z;
  open_issues_count : Z;
  default_branch : string;
  language : option string;
  topics : list string
}.
End RepoInfo.

Module SearchItem.
Record t : Type := mk {
  name : string;
  path : string;
  repository : string;
  url : string;
  score : option spec_float;
  size : option Z;
  language : option string
}.
End SearchItem.

(** ** The client *)

Record GitHubClient : Type := mkClient {
  token : option string;
  github : Github.t
}.

Local Open Scope py_scope.

(** [__init__]: [Github] stands for PyGithub's constructor, called with the
    token when the token is true and with no argument otherwise. *)
Definition __init__ (Github : option string -> Github.t)
    (token : option string) : GitHubClient :=
  mkClient token (if truthy token then Github token else Github None).

(** [repo_obj.get_contents(p, ref=branch) if branch else
    repo_obj.get_contents(p)]. *)
Definition fetch_contents (repo_obj : Repository.t) (p : string)
    (branch : option string) : Py Contents :=
  if truthy branch
  then call (GetContents p branch) (Repository.get_contents repo_obj p branch)
  else call (GetContents p None) (Repository.get_contents repo_obj p None).

(** Body of the loop over a directory's children. *)
Definition item_data (item : ContentFile.t) : ItemData.t :=
  let d := ItemData.mk (ContentFile.name item) (ContentFile.path item)
             (if String.eqb (ContentFile.type item) "dir" then "dir" else "file")
             None in
  if String.eqb (ContentFile.type item) "file"
  then ItemData.set_size d (Some (ContentFile.size item))
  else d.

Definition get_repository_structure (self : GitHubClient)
    (owner repo path : string) (branch : option string) : Py Structure.t :=
  try (repo_obj <- call (GetRepo (owner ++ "/" ++ repo))
                     (Github.get_repo (github self) (owner ++ "/" ++ repo)) ;;
       contents <- fetch_contents repo_obj path branch ;;
       match contents with
       | ContentList l =>
           let items :=
             fold_left (fun items item => (items ++ [item_data item])%list) l [] in
           ret (Structure.mk path items)
       | ContentSingle c =>
           ret (Structure.mk path
                  [ItemData.mk (ContentFile.name c) (ContentFile.path c)
                     "file" (Some (ContentFile.size c))])
       end)
  except GithubExceptionC as e =>
    raise (mkExn ExceptionC ("GitHub API error: " ++ exc_str e)).

Definition binary_placeholder (size : Z) : string :=
  "[Binary or unsupported encoding - size: " ++ str_of_int size ++ " bytes]".

(** The block "Decode content based on encoding" of [get_file_content]
    (lines 93 to 112), which computes [content_str]. *)
Definition decode_content (file_content : ContentFile.t) : Py string :=
  match ContentFile.decoded_content file_content with
  | Has decoded_bytes =>
      match decoded_bytes with
      | Some decoded_bytes => decode_utf8 decoded_bytes
      | None => ret ""
      end
  | Missing =>
      match ContentFile.content file_content with
      | Has c =>
          try (decoded_bytes <- b64decode c ;;
               decode_utf8 decoded_bytes)
          except ExceptionC as decode_error =>
            ret (binary_placeholder (ContentFile.size file_content))
      | Missing => ret ""
      end
  end.

Definition get_file_content (self : GitHubClient)
    (owner repo file_path : string) (branch : option string) : Py FileData.t :=
  repo_obj <- call (GetRepo (owner ++ "/" ++ repo))
                (Github.get_repo (github self) (owner ++ "/" ++ repo)) ;;
  file_content <- fetch_contents repo_obj file_path branch ;;
  match file_content with
  | ContentList _ => raise (mkExn ValueErrorC "Cannot get directory content")
  | ContentSingle file_content =>
      content_str <- decode_content file_content ;;
      ret (FileData.mk file_path content_str (ContentFile.size file_content)
             "utf-8")
  end.

(** [obj.name] on an object of class [cls]: [AttributeError] when the
    attribute is not there. *)
Definition getattr {A : Type} (cls name : string) (a : attr A) : Py A :=
  match a with
  | Has v => ret v
  | Missing =>
      raise (mkExn AttributeErrorC
               ("'" ++ cls ++ "' object has no attribute '" ++ name ++ "'"))
  end.

(** [x > n] for an integer [n]: [TypeError] when [x] is [None]. *)
Definition gt_int (x : option Z) (n : Z) : Py bool :=
  match x with
  | Some v => ret (v >? n)
  | None =>
      raise (mkExn TypeErrorC
               "'>' not supported between instances of 'NoneType' and 'int'")
  end.

Definition test_connection (self : GitHubClient) : Py bool :=
  try (rate_limit <- call GetRateLimit (Github.get_rate_limit (github self)) ;;
       core <- getattr "RateLimitOverview" "core" (RateLimit.core rate_limit) ;;
       has_remaining <- gt_int (Rate.remaining core) 0 ;;
       if has_remaining
       then ret true
       else ret true)
  except ExceptionC as e => ret false.

(** [d.isoformat() if d else None]; a [datetime] is always true. *)
Definition iso_or_none (d : option datetime) : option string :=
  match d with
  | Some d => Some (isoformat d)
  | None => None
  end.

(** [list(x)]: [TypeError] when [x] is [None]. *)
Definition list_ {A : Type} (x : option (list A)) : Py (list A) :=
  match x with
  | Some l => ret l
  | None => raise (mkExn TypeErrorC "'NoneType' object is not iterable")
  end.

Definition get_repository_info (self : GitHubClient) (owner repo : string)
    : Py RepoInfo.t :=
  repo_obj <- call (GetRepo (owner ++ "/" ++ repo))
                (Github.get_repo (github self) (owner ++ "/" ++ repo)) ;;
  topics <- match Repository.topics repo_obj with
            | Has ts => list_ ts
            | Missing => ret []
            end ;;
  ret (RepoInfo.mk
         (Repository.name repo_obj)
         (Repository.full_name repo_obj)
         (Repository.description repo_obj)
         (Repository.owner_login repo_obj)
         (Repository.private repo_obj)
         (Repository.fork repo_obj)
         (iso_or_none (Repository.created_at repo_obj))
         (iso_or_none (Repository.updated_at repo_obj))
         (iso_or_none (Repository.pushed_at repo_obj))
         (Repository.size repo_obj)
         (Repository.stargazers_count repo_obj)
         (Repository.watchers_count repo_obj)
         (Repository.forks_count repo_obj)
         (Repository.open_issues_count repo_obj)
         (Repository.default_branch repo_obj)
         (Repository.language repo_obj)
         topics).

(** An [Optional[str]] inside an f-string. *)
Definition fstr (s : option string) : string :=
  match s with Some s => s | None => "None" end.

Definition build_search_query (query : string) (owner repo : option string)
    : string :=
  let search_query := query in
  if truthy owner && truthy repo
  then search_query ++ " repo:" ++ fstr owner ++ "/" ++ fstr repo
  else if truthy owner
  then search_query ++ " user:" ++ fstr owner
  else search_query.

Definition attr_or_none {A : Type} (a : attr A) : option A :=
  match a with Has v => Some v | Missing => None end.

(** Body of the loop over the search results. *)
Definition format_result (result : CodeResult.t) : SearchItem.t :=
  SearchItem.mk
    (CodeResult.name result)
    (CodeResult.path result)
    (CodeResult.repository_full_name result)
    (CodeResult.html_url result)
    (attr_or_none (CodeResult.score result))
    (attr_or_none (CodeResult.size result))
    (match CodeResult.repository_language result with
     | Has l => l
     | Missing => None
     end).

Definition search_code (self : GitHubClient) (query : string)
    (owner repo : option string) : Py (list SearchItem.t) :=
  let search_query := build_search_query query owner repo in
  results <- call (SearchCode search_query)
               (Github.search_code (github self) search_query) ;;
  let formatted_results :=
    fold_left (fun acc result => (acc ++ [format_result result])%list)
      (firstn 50 results) [] in
  ret formatted_results.

(** ** What the remote answers

    The reference the client passes on: the branch when it is a non-empty
    string, nothing otherwise. *)
Definition effective_ref (branch : option string) : option string :=
  if truthy branch then branch else None.

(** The remote's answer for the contents at [path] of [owner/repo]: the
    repository lookup followed by the contents lookup. *)
Definition remote_contents (self : GitHubClient) (owner repo path : string)
    (branch : option string) : result Contents :=
  match Github.get_repo (github self) (owner ++ "/" ++ repo) with
  | Ok repo_obj => Repository.get_contents repo_obj path (effective_ref branch)
  | Raise e => Raise e
  end.

(** The calls made up to and including the one that settles
    [remote_contents]. *)
Definition lookup_calls (self : GitHubClient) (owner repo path : string)
    (branch : option string) : list Call :=
  match Github.get_repo (github self) (owner ++ "/" ++ repo) with
  | Ok _ => [GetRepo (owner ++ "/" ++ repo); GetContents path (effective_ref branch)]
  | Raise _ => [GetRepo (owner ++ "/" ++ repo)]
  end.

(** The exception [get_repository_structure] raises from its handler. *)
Definition api_error (e : exn) : exn :=
  mkExn ExceptionC ("GitHub API error: " ++ exc_str e).

(** The exception [get_file_content] raises for a directory. *)
Definition directory_error : exn := mkExn ValueErrorC "Cannot get directory content".

Definition is_decode (c : Call) : bool :=
  match c with
  | B64Decode | DecodeUtf8 => true
  | _ => false
  end.

(** The invariant of the specification's data model on one entry: the size
    is present exactly for kind file and absent exactly for kind dir. *)
Definition size_iff_file (d : ItemData.t) : bool :=
  match ItemData.size d with
  | Some _ => String.eqb (ItemData.type d) "file"
  | None => String.eqb (ItemData.type d) "dir"
  end.

(** ** Sample remotes *)

Definition not_found : exn := mkExn UnknownObjectExceptionC "404 Not Found".
Definition forbidden : exn := mkExn GithubExceptionC "403 Forbidden".
Definition rate_limited : exn :=
  mkExn RateLimitExceededExceptionC "403 API rate limit exceeded".
Definition connection_error : exn :=
  mkExn ConnectionErrorC "Connection refused".

(** A rate-limit answer that carries [core.remaining = n]. *)
Definition quota (n : Z) : RateLimit.t :=
  RateLimit.mk (Has (Rate.mk (Some n))).

Definition sample_repo (get_contents : string -> option string -> result Contents)
    : Repository.t :=
  Repository.mk "hello-world" "octo/hello-world" (Some "My first repository")
    "octo" false false
    (Some (mkDatetime 2011 1 26 19 1 12 0 (Some 0)))
    None
    (Some (mkDatetime 2011 1 26 19 6 43 250000 None))
    108 80 80 9 0 "main" None Missing get_contents.

Definition client_serving (get_contents : string -> option string -> result Contents)
    : GitHubClient :=
  mkClient None
    (Github.mk (fun _ => Ok (sample_repo get_contents))
       (Ok (quota 4999))
       (fun _ => Ok [])).

Definition failing_client (e : exn) : GitHubClient :=
  mkClient None (Github.mk (fun _ => Raise e) (Raise e) (fun _ => Raise e)).

Definition exhausted_client : GitHubClient :=
  mkClient (Some "ghp_token")
    (Github.mk (fun _ => Raise rate_limited) (Ok (quota 0))
       (fun _ => Raise rate_limited)).

Definition readme : ContentFile.t :=
  ContentFile.mk "README.md" "README.md" "file" 42
    (Has (Some (list_byte_of_string "# hello"))) (Has (Some "IyBoZWxsbw==")).
Definition src_dir : ContentFile.t :=
  ContentFile.mk "src" "src" "dir" 0 (Has None) (Has None).
Definition latest_link : ContentFile.t :=
  ContentFile.mk "latest" "latest" "symlink" 7 (Has None) (Has None).

(** A PNG header: not UTF-8. *)
Definition png_bytes : bytes := [x89; x50; x4e; x47].
Definition logo_decoded : ContentFile.t :=
  ContentFile.mk "logo.png" "logo.png" "file" 4 (Has (Some png_bytes))
    (Has (Some "iVBORw==")).
Definition logo_base64 : ContentFile.t :=
  ContentFile.mk "logo.png" "logo.png" "file" 4 Missing (Has (Some "iVBORw==")).

Definition root_listing : list ContentFile.t := [readme; src_dir; latest_link].

Definition code_result (n : nat) : CodeResult.t :=
  CodeResult.mk ("f" ++ str_of_int (Z.of_nat n)) "src" "https://github.com/octo"
    Missing (Has (Z.of_nat n)) "octo/hello-world" (Has None).

Definition busy_client : GitHubClient :=
  mkClient None
    (Github.mk (fun _ => Raise not_found) (Ok (quota 10))
       (fun _ => Ok (map code_result (seq 0 60)))).

Definition root_client : GitHubClient :=
  client_serving (fun _ _ => Ok (ContentList root_listing)).

Definition readme_client : GitHubClient :=
  client_serving (fun _ _ => Ok (ContentSingle readme)).

Definition logo_decoded_client : GitHubClient :=
  client_serving (fun _ _ => Ok (ContentSingle logo_decoded)).

Definition logo_base64_client : GitHubClient :=
  client_serving (fun _ _ => Ok (ContentSingle logo_base64)).

(** A repository as the library presents it when the remote gives no
    topics: the attribute is there and holds [None]. *)
Definition untopiced_repo : Repository.t :=
  Repository.mk "legacy" "octo/legacy" None "octo" true false
    (Some (mkDatetime 2009 5 2 8 0 0 0 None)) None None
    12 0 0 0 0 "master" (Some "C") (Has None)
    (fun _ _ => Raise not_found).

(** A repository with topics. *)
Definition topical_repo : Repository.t :=
  Repository.mk "hello-world" "octo/hello-world" None "octo" false true
    None (Some (mkDatetime 2020 2 29 23 59 59 0 (Some 3600))) None
    1 2 3 4 5 "main" (Some "Rocq") (Has (Some ["proofs"; "github"]))
    (fun _ _ => Raise not_found).

Definition client_of_repo (r : Repository.t) : GitHubClient :=
  mkClient None
    (Github.mk (fun _ => Ok r) (Ok (quota 60)) (fun _ => Ok [])).


(** ** Theorems *)

(** Unfold the plumbing of a computation down to pairs of a call list and
    an outcome. *)
Ltac py_run := unfold try_except, bind, call, ret, raise, calls, outcome.

(** *** The loops *)

Lemma fold_left_snoc_map {A B : Type} (f : A -> B) (l : list A) (acc : list B) :
  fold_left (fun acc x => (acc ++ [f x])%list) l acc = (acc ++ map f l)%list.
Proof.
  revert acc.
  induction l as [|x l IH]; intros acc; simpl.
  - now rewrite app_nil_r.
  - now rewrite IH, <- app_assoc.
Qed.

(** *** Exception classes *)

Lemma issubclass_Exception (c : exn_class) : issubclass c ExceptionC = true.
Proof. destruct c; reflexivity. Qed.

Lemma isinstance_Exception (e : exn) : isinstance e ExceptionC = true.
Proof. apply issubclass_Exception. Qed.

Lemma api_error_class (e : exn) : exc_class (api_error e) = ExceptionC.
Proof. reflexivity. Qed.

(** *** [get_repository_structure], case by case *)

Lemma fetch_contents_eq (repo_obj : Repository.t) (p : string)
    (branch : option string) :
  fetch_contents repo_obj p branch =
  ([GetContents p (effective_ref branch)],
   Repository.get_contents repo_obj p (effective_ref branch)).
Proof.
  unfold fetch_contents, effective_ref, call.
  destruct (truthy branch); reflexivity.
Qed.

Lemma structure_of_failure self owner repo path branch e :
  remote_contents self owner repo path branch = Raise e ->
  get_repository_structure self owner repo path branch =
  (lookup_calls self owner repo path branch,
   Raise (if isinstance e GithubExceptionC then api_error e else e)).
Proof.
  unfold remote_contents, lookup_calls, get_repository_structure.
  py_run.
  destruct (Github.get_repo _ _) as [repo_obj|e0]; intros H.
  - rewrite fetch_contents_eq, H. simpl.
    destruct (isinstance e GithubExceptionC); reflexivity.
  - injection H as ->.
    destruct (isinstance e GithubExceptionC); reflexivity.
Qed.

Lemma structure_of_directory self owner repo path branch l :
  remote_contents self owner repo path branch = Ok (ContentList l) ->
  get_repository_structure self owner repo path branch =
  (lookup_calls self owner repo path branch,
   Ok (Structure.mk path (map item_data l))).
Proof.
  unfold remote_contents, lookup_calls, get_repository_structure.
  py_run.
  destruct (Github.get_repo _ _) as [repo_obj|e0]; intros H; [|discriminate].
  rewrite fetch_contents_eq, H. simpl.
  now rewrite fold_left_snoc_map.
Qed.

Lemma structure_of_file self owner repo path branch c :
  remote_contents self owner repo path branch = Ok (ContentSingle c) ->
  get_repository_structure self owner repo path branch =
  (lookup_calls self owner repo path branch,
   Ok (Structure.mk path
         [ItemData.mk (ContentFile.name c) (ContentFile.path c) "file"
            (Some (ContentFile.size c))])).
Proof.
  unfold remote_contents, lookup_calls, get_repository_structure.
  py_run.
  destruct (Github.get_repo _ _) as [repo_obj|e0]; intros H; [|discriminate].
  rewrite fetch_contents_eq, H. reflexivity.
Qed.

Lemma item_data_type (item : ContentFile.t) :
  ItemData.type (item_data item) =
  if String.eqb (ContentFile.type item) "dir" then "dir" else "file".
Proof.
  unfold item_data.
  destruct (String.eqb (ContentFile.type item) "file"); reflexivity.
Qed.

Lemma item_data_size (item : ContentFile.t) :
  ItemData.size (item_data item) =
  if String.eqb (ContentFile.type item) "file"
  then Some (ContentFile.size item) else None.
Proof.
  unfold item_data.
  destruct (String.eqb (ContentFile.type item) "file"); reflexivity.
Qed.

Lemma Forall2_map_same {A B : Type} (P : A -> B -> Prop) (f : A -> B)
    (l : list A) :
  (forall x, In x l -> P x (f x)) -> Forall2 P l (map f l).
Proof.
  induction l as [|x l IH]; intros H; simpl; constructor.
  - apply H. now left.
  - apply IH. intros y Hy. apply H. now right.
Qed.

(** [size_iff_file] read as the two equivalences of the data model. *)
Lemma size_iff_file_spec (d : ItemData.t) :
  size_iff_file d = true <->
  (ItemData.size d <> None <-> ItemData.type d = "file") /\
  (ItemData.size d = None <-> ItemData.type d = "dir").
Proof.
  unfold size_iff_file.
  destruct (ItemData.size d) as [n|].
  - destruct (String.eqb_spec (ItemData.type d) "file") as [Hf|Hf].
    + rewrite Hf. split; [intros _|reflexivity].
      split; split; try discriminate; reflexivity.
    + split; [discriminate|].
      intros [[Hs _] _]. exfalso. apply Hf, Hs. discriminate.
  - destruct (String.eqb_spec (ItemData.type d) "dir") as [Hd|Hd].
    + rewrite Hd. split; [intros _|reflexivity].
      split; split; try reflexivity; try discriminate.
      intros N. now contradiction N.
    + split; [discriminate|].
      intros [_ [Hs _]]. exfalso. apply Hd, Hs. reflexivity.
Qed.

(** C2, as the claim states it, fails: a network failure that the transport
    raises as a [ConnectionError], which is no [GithubException], leaves
    [get_repository_structure] unchanged instead of becoming the generic
    API error. *)
Lemma C2_network_failure_propagates_raw :
  remote_contents (failing_client connection_error) "octo" "hello-world" "/" None
    = Raise connection_error /\
  outcome (get_repository_structure (failing_client connection_error)
             "octo" "hello-world" "/" None) = Raise connection_error /\
  outcome (get_repository_structure (failing_client connection_error)
             "octo" "hello-world" "/" None) <> Raise (api_error connection_error).
Proof.
  repeat split; try reflexivity.
  vm_compute. discriminate.
Qed.

(** C2 (amended): a remote failure during [get_repository_structure] that
    is raised as a [GithubException] (not-found, permission denied,
    rate-limited) surfaces as one plain [Exception] whose message is
    "GitHub API error: " followed by the failure's own message, whatever the
    failure's subclass; a failure raised as any other class propagates
    unchanged. *)
Theorem C2_remote_failure_surfacing self owner repo path branch e :
  remote_contents self owner repo path branch = Raise e ->
  outcome (get_repository_structure self owner repo path branch) =
    Raise (if isinstance e GithubExceptionC then api_error e else e) /\
  exc_class (api_error e) = ExceptionC /\
  exc_str (api_error e) = "GitHub API error: " ++ exc_str e.
Proof.
  intros H.
  rewrite (structure_of_failure _ _ _ _ _ _ H).
  repeat split.
Qed.

Lemma C2_remote_failure_surfacing_witness :
  remote_contents (failing_client not_found) "octo" "gone" "/" (Some "main")
    = Raise not_found /\
  outcome (get_repository_structure (failing_client not_found)
             "octo" "gone" "/" (Some "main"))
    = Raise (mkExn ExceptionC "GitHub API error: 404 Not Found").
Proof.
  split; [reflexivity|].
  exact (proj1 (C2_remote_failure_surfacing (failing_client not_found)
                  "octo" "gone" "/" (Some "main") not_found eq_refl)).
Defined.

(** C7, as the claim states it, fails: a directory with a symlink child is
    listed with an entry of kind file whose size is null. *)
Lemma C7_symlink_entry_breaks_size_iff_file :
  remote_contents root_client "octo" "hello-world" "/" None
    = Ok (ContentList root_listing) /\
  outcome (get_repository_structure root_client "octo" "hello-world" "/" None)
    = Ok (Structure.mk "/"
            [ItemData.mk "README.md" "README.md" "file" (Some 42);
             ItemData.mk "src" "src" "dir" None;
             ItemData.mk "latest" "latest" "file" None]) /\
  size_iff_file (ItemData.mk "latest" "latest" "file" None) = false.
Proof. repeat split. Qed.

(** C7 (amended): for a directory with N immediate children,
    [get_repository_structure] returns a listing with exactly N entries, one
    per child and no deeper; every entry of kind dir has a null size, every
    entry with a present size has kind file, and for every child whose
    remote type is "file" or "dir" the size is present iff the kind is file
    and null iff the kind is dir. *)
Theorem C7_directory_listing self owner repo path branch l :
  remote_contents self owner repo path branch = Ok (ContentList l) ->
  exists out,
    outcome (get_repository_structure self owner repo path branch) = Ok out /\
    List.length (Structure.items out) = List.length l /\
    Forall2 (fun item d =>
               (ItemData.type d = "dir" -> ItemData.size d = None) /\
               (ItemData.size d <> None -> ItemData.type d = "file") /\
               (ContentFile.type item = "file" \/ ContentFile.type item = "dir" ->
                size_iff_file d = true))
      l (Structure.items out).
Proof.
  intros H.
  rewrite (structure_of_directory _ _ _ _ _ _ H).
  eexists. split; [reflexivity|]. simpl. split.
  - apply length_map.
  - apply Forall2_map_same. intros item _.
    unfold size_iff_file.
    rewrite item_data_type, item_data_size.
    destruct (String.eqb_spec (ContentFile.type item) "dir") as [Hd|Hd];
      destruct (String.eqb_spec (ContentFile.type item) "file") as [Hf|Hf];
      simpl.
    + rewrite Hd in Hf. discriminate.
    + repeat split; [intros N; now contradiction N].
    + repeat split; discriminate.
    + split; [discriminate|].
      split; [intros N; now contradiction N|].
      intros [Hk|Hk]; contradiction.
Qed.

Lemma C7_directory_listing_witness :
  remote_contents root_client "octo" "hello-world" "/" None
    = Ok (ContentList root_listing) /\
  exists out,
    outcome (get_repository_structure root_client "octo" "hello-world" "/" None)
      = Ok out /\
    List.length (Structure.items out) = List.length root_listing /\
    Forall2 (fun item d =>
               (ItemData.type d = "dir" -> ItemData.size d = None) /\
               (ItemData.size d <> None -> ItemData.type d = "file") /\
               (ContentFile.type item = "file" \/ ContentFile.type item = "dir" ->
                size_iff_file d = true))
      root_listing (Structure.items out).
Proof.
  split; [reflexivity|].
  apply (C7_directory_listing root_client "octo" "hello-world" "/" None).
  reflexivity.
Defined.

(** C8: for a path addressing a single file, [get_repository_structure]
    returns a listing whose path is the requested path and whose items are
    exactly one entry, of kind file, with the file's byte size. *)
Theorem C8_single_file_listing self owner repo path branch c :
  remote_contents self owner repo path branch = Ok (ContentSingle c) ->
  exists out d,
    outcome (get_repository_structure self owner repo path branch) = Ok out /\
    Structure.path out = path /\
    Structure.items out = [d] /\
    ItemData.type d = "file" /\
    ItemData.size d = Some (ContentFile.size c).
Proof.
  intros H.
  rewrite (structure_of_file _ _ _ _ _ _ H).
  do 2 eexists. repeat split.
Qed.

Lemma C8_single_file_listing_witness :
  remote_contents readme_client "octo" "hello-world" "/README.md" None
    = Ok (ContentSingle readme) /\
  exists out d,
    outcome (get_repository_structure readme_client
               "octo" "hello-world" "/README.md" None) = Ok out /\
    Structure.path out = "/README.md" /\
    Structure.items out = [d] /\
    ItemData.type d = "file" /\
    ItemData.size d = Some 42.
Proof.
  split; [reflexivity|].
  apply (C8_single_file_listing readme_client "octo" "hello-world"
           "/README.md" None readme).
  reflexivity.
Defined.

(** The specification's example: a README of 42 bytes. *)
Example structure_of_readme :
  outcome (get_repository_structure readme_client
             "octo" "hello-world" "/README.md" None)
  = Ok (Structure.mk "/README.md"
          [ItemData.mk "README.md" "README.md" "file" (Some 42)]).
Proof. reflexivity. Qed.

(** C10: in a directory listing, a child whose remote type is neither
    "file" nor "dir" (a symlink, a submodule) is reported with kind "file"
    and a null size. *)
Theorem C10_other_types_are_sizeless_files self owner repo path branch l :
  remote_contents self owner repo path branch = Ok (ContentList l) ->
  exists out,
    outcome (get_repository_structure self owner repo path branch) = Ok out /\
    Forall2 (fun item d =>
               ContentFile.type item <> "file" ->
               ContentFile.type item <> "dir" ->
               ItemData.name d = ContentFile.name item /\
               ItemData.type d = "file" /\
               ItemData.size d = None)
      l (Structure.items out).
Proof.
  intros H.
  rewrite (structure_of_directory _ _ _ _ _ _ H).
  eexists. split; [reflexivity|]. simpl.
  apply Forall2_map_same. intros item _ Hf Hd.
  rewrite item_data_type, item_data_size.
  destruct (String.eqb_spec (ContentFile.type item) "dir"); [contradiction|].
  destruct (String.eqb_spec (ContentFile.type item) "file"); [contradiction|].
  repeat split.
  unfold item_data.
  destruct (String.eqb (ContentFile.type item) "file"); reflexivity.
Qed.

Lemma C10_other_types_are_sizeless_files_witness :
  remote_contents root_client "octo" "hello-world" "/" None
    = Ok (ContentList root_listing) /\
  exists out,
    outcome (get_repository_structure root_client "octo" "hello-world" "/" None)
      = Ok out /\
    Forall2 (fun item d =>
               ContentFile.type item <> "file" ->
               ContentFile.type item <> "dir" ->
               ItemData.name d = ContentFile.name item /\
               ItemData.type d = "file" /\
               ItemData.size d = None)
      root_listing (Structure.items out).
Proof.
  split; [reflexivity|].
  apply (C10_other_types_are_sizeless_files root_client
           "octo" "hello-world" "/" None).
  reflexivity.
Defined.

(** *** [get_file_content] *)

Lemma file_of_directory self owner repo file_path branch l :
  remote_contents self owner repo file_path branch = Ok (ContentList l) ->
  get_file_content self owner repo file_path branch =
  ([GetRepo (owner ++ "/" ++ repo); GetContents file_path (effective_ref branch)],
   Raise directory_error).
Proof.
  unfold remote_contents, get_file_content, bind, call, raise.
  destruct (Github.get_repo _ _) as [repo_obj|e0]; intros H; [|discriminate].
  rewrite fetch_contents_eq, H. reflexivity.
Qed.

Lemma file_of_single self owner repo file_path branch c :
  remote_contents self owner repo file_path branch = Ok (ContentSingle c) ->
  get_file_content self owner repo file_path branch =
  (GetRepo (owner ++ "/" ++ repo)
     :: GetContents file_path (effective_ref branch)
     :: calls (decode_content c),
   match outcome (decode_content c) with
   | Ok content_str =>
       Ok (FileData.mk file_path content_str (ContentFile.size c) "utf-8")
   | Raise e => Raise e
   end).
Proof.
  unfold remote_contents, get_file_content. py_run.
  destruct (Github.get_repo _ _) as [repo_obj|e0]; intros H; [|discriminate].
  rewrite fetch_contents_eq, H.
  destruct (decode_content c) as [l [s|e]]; simpl.
  - now rewrite app_nil_r.
  - reflexivity.
Qed.

Lemma prefix_app (n b : string) : String.prefix n (n ++ b) = true.
Proof.
  induction n as [|a n IH]; simpl.
  - now destruct b.
  - destruct (ascii_dec a a); [exact IH|congruence].
Qed.

Lemma contains_of_prefix (n h : string) :
  String.prefix n h = true -> contains n h = true.
Proof. intros H. destruct h; cbn [contains]; rewrite H; reflexivity. Qed.

Lemma contains_infix (a n b : string) : contains n (a ++ n ++ b) = true.
Proof.
  induction a as [|x a IH]; simpl.
  - apply contains_of_prefix, prefix_app.
  - rewrite IH. apply orb_true_r.
Qed.

(** The placeholder carries the byte size, in decimal. *)
Lemma placeholder_has_size (size : Z) :
  contains (str_of_int size) (binary_placeholder size) = true.
Proof. unfold binary_placeholder. apply contains_infix. Qed.

(** The base64 path of [get_file_content] absorbs every failure of its
    two decoding steps. *)
Lemma base64_path_total (c : ContentFile.t) :
  ContentFile.decoded_content c = Missing ->
  exists s, outcome (decode_content c) = Ok s.
Proof.
  unfold decode_content. intros ->.
  destruct (ContentFile.content c) as [|x]; [now eexists|].
  unfold try_except, bind, b64decode, decode_utf8, call, ret.
  destruct x as [s|].
  - destruct (is_ascii s).
    + destruct (a2b_base64 _ 0 0 0 []) as [bs|e].
      * destruct (utf8_valid bs); [now eexists|].
        simpl. now eexists.
      * rewrite isinstance_Exception. now eexists.
    + simpl. now eexists.
  - simpl. now eexists.
Qed.

Lemma base64_path_binary (c : ContentFile.t) (s : string) (bs : bytes) :
  ContentFile.decoded_content c = Missing ->
  ContentFile.content c = Has (Some s) ->
  outcome (b64decode (Some s)) = Ok bs ->
  utf8_valid bs = false ->
  outcome (decode_content c) = Ok (binary_placeholder (ContentFile.size c)).
Proof.
  unfold decode_content. intros -> -> Hb Hv.
  unfold try_except, bind.
  destruct (b64decode (Some s)) as [l r]. simpl in Hb. subst r.
  unfold decode_utf8, call. rewrite Hv. reflexivity.
Qed.

(** The path through [decoded_content] has no handler: bytes that are not
    UTF-8 end the call with the decoder's exception. *)
Lemma decoded_path_binary (c : ContentFile.t) (bs : bytes) :
  ContentFile.decoded_content c = Has (Some bs) ->
  utf8_valid bs = false ->
  outcome (decode_content c) = Raise UnicodeDecodeError.
Proof.
  unfold decode_content. intros -> Hv.
  unfold decode_utf8, call. rewrite Hv. reflexivity.
Qed.

(** C1: a binary file fetched through the base64 path comes back as the
    placeholder; the same bytes on an object that carries [decoded_content]
    end the call with [UnicodeDecodeError] instead of the placeholder. *)
Theorem C1_binary_decoded_content_raises :
  utf8_valid png_bytes = false /\
  outcome (get_file_content logo_base64_client "octo" "hello-world" "logo.png" None)
    = Ok (FileData.mk "logo.png" "[Binary or unsupported encoding - size: 4 bytes]"
            4 "utf-8") /\
  get_file_content logo_decoded_client "octo" "hello-world" "logo.png" None
    = ([GetRepo "octo/hello-world"; GetContents "logo.png" None; DecodeUtf8],
       Raise UnicodeDecodeError).
Proof. repeat split. Qed.

Example file_content_of_readme :
  outcome (get_file_content readme_client "octo" "hello-world" "README.md"
             (Some "main"))
  = Ok (FileData.mk "README.md" "# hello" 42 "utf-8").
Proof. reflexivity. Qed.

(** C3: when the path resolves to a directory, [get_file_content] fails
    with a [ValueError] whose message contains "directory", and it has made
    no decoding call by then. *)
Theorem C3_directory_is_invalid_argument self owner repo file_path branch l :
  remote_contents self owner repo file_path branch = Ok (ContentList l) ->
  exists msg,
    outcome (get_file_content self owner repo file_path branch)
      = Raise (mkExn ValueErrorC msg) /\
    contains "directory" msg = true /\
    existsb is_decode (calls (get_file_content self owner repo file_path branch))
      = false.
Proof.
  intros H.
  rewrite (file_of_directory _ _ _ _ _ _ H).
  exists "Cannot get directory content". repeat split.
Qed.

Lemma C3_directory_is_invalid_argument_witness :
  remote_contents root_client "octo" "hello-world" "/" None
    = Ok (ContentList root_listing) /\
  exists msg,
    outcome (get_file_content root_client "octo" "hello-world" "/" None)
      = Raise (mkExn ValueErrorC msg) /\
    contains "directory" msg = true /\
    existsb is_decode (calls (get_file_content root_client "octo" "hello-world" "/" None))
      = false.
Proof.
  split; [reflexivity|].
  apply (C3_directory_is_invalid_argument root_client "octo" "hello-world" "/"
           None root_listing).
  reflexivity.
Defined.

(** On the base64 path the call returns a record, whatever the transport
    text holds. *)
Lemma file_content_base64_returns self owner repo file_path branch c :
  remote_contents self owner repo file_path branch = Ok (ContentSingle c) ->
  ContentFile.decoded_content c = Missing ->
  exists s,
    outcome (get_file_content self owner repo file_path branch)
    = Ok (FileData.mk file_path s (ContentFile.size c) "utf-8").
Proof.
  intros H Hd.
  rewrite (file_of_single _ _ _ _ _ _ H).
  destruct (base64_path_total c Hd) as [s Hs].
  exists s. unfold outcome in *. simpl. now rewrite Hs.
Qed.

(** On the [decoded_content] path, bytes that are not UTF-8 make the call
    raise, for every such file. *)
Lemma file_content_decoded_binary_raises self owner repo file_path branch c bs :
  remote_contents self owner repo file_path branch = Ok (ContentSingle c) ->
  ContentFile.decoded_content c = Has (Some bs) ->
  utf8_valid bs = false ->
  outcome (get_file_content self owner repo file_path branch)
  = Raise UnicodeDecodeError.
Proof.
  intros H Hd Hv.
  rewrite (file_of_single _ _ _ _ _ _ H).
  pose proof (decoded_path_binary c bs Hd Hv) as Hs.
  unfold outcome in *. simpl. now rewrite Hs.
Qed.

(** *** [test_connection] *)

Lemma test_connection_calls (self : GitHubClient) :
  calls (test_connection self) = [GetRateLimit].
Proof.
  unfold test_connection, getattr, gt_int. py_run.
  destruct (Github.get_rate_limit (github self)) as [rl|e0]; simpl.
  - destruct (RateLimit.core rl) as [|c]; simpl.
    + reflexivity.
    + destruct (Rate.remaining c) as [n|]; simpl; [|reflexivity].
      destruct (n >? 0); reflexivity.
  - now rewrite isinstance_Exception.
Qed.




(** *** [get_repository_info] *)

(** With a topics attribute that holds [None], [list(...)] ends the call. *)
Lemma repository_info_none_topics self owner repo repo_obj :
  Github.get_repo (github self) (owner ++ "/" ++ repo) = Ok repo_obj ->
  Repository.topics repo_obj = Has None ->
  get_repository_info self owner repo
  = ([GetRepo (owner ++ "/" ++ repo)],
     Raise (mkExn TypeErrorC "'NoneType' object is not iterable")).
Proof.
  intros H Ht.
  unfold get_repository_info, list_. py_run. rewrite H, Ht. reflexivity.
Qed.

(** C9: for a repository the remote gives without topics, which the
    library presents with a topics attribute holding [None],
    [get_repository_info] raises [TypeError] from [list(None)] instead of
    returning a record with empty topics; the fallback to the empty
    sequence applies only when the attribute itself is missing. *)
Theorem C9_none_topics_raise_type_error :
  Repository.topics untopiced_repo = Has None /\
  get_repository_info (client_of_repo untopiced_repo) "octo" "legacy"
    = ([GetRepo "octo/legacy"],
       Raise (mkExn TypeErrorC "'NoneType' object is not iterable")) /\
  Repository.topics (sample_repo (fun _ _ => Raise not_found)) = Missing /\
  (exists info,
      outcome (get_repository_info
                 (client_of_repo (sample_repo (fun _ _ => Raise not_found)))
                 "octo" "hello-world") = Ok info /\
      RepoInfo.topics info = [] /\
      RepoInfo.created_at info = Some "2011-01-26T19:01:12+00:00" /\
      RepoInfo.updated_at info = None).
Proof.
  split; [reflexivity|]. split; [reflexivity|]. split; [reflexivity|].
  eexists. split; [reflexivity|]. repeat split.
Qed.

(** *** [search_code] *)

Lemma search_code_eq self query owner repo :
  search_code self query owner repo =
  ([SearchCode (build_search_query query owner repo)],
   match Github.search_code (github self) (build_search_query query owner repo) with
   | Ok results => Ok (map format_result (firstn 50 results))
   | Raise e => Raise e
   end).
Proof.
  unfold search_code, bind, call, ret.
  destruct (Github.search_code _ _) as [results|e]; [|reflexivity].
  now rewrite fold_left_snoc_map.
Qed.

Lemma format_result_fields (r : CodeResult.t) :
  SearchItem.name (format_result r) = CodeResult.name r /\
  SearchItem.path (format_result r) = CodeResult.path r /\
  SearchItem.repository (format_result r) = CodeResult.repository_full_name r /\
  SearchItem.url (format_result r) = CodeResult.html_url r /\
  SearchItem.score (format_result r)
    = match CodeResult.score r with Has v => Some v | Missing => None end /\
  SearchItem.size (format_result r)
    = match CodeResult.size r with Has v => Some v | Missing => None end /\
  SearchItem.language (format_result r)
    = match CodeResult.repository_language r with Has v => v | Missing => None end.
Proof. repeat split. Qed.

(** C5: [search_code] returns at most 50 results, also when the remote
    search gives more, and the returned items are the first ones the
    remote gave, in the remote's order: the item at each position carries
    the name, path, repository, URL, score, size and language of the
    remote result at that position. *)
Theorem C5_search_results_capped self query owner repo results :
  Github.search_code (github self) (build_search_query query owner repo)
    = Ok results ->
  exists out,
    outcome (search_code self query owner repo) = Ok out /\
    (List.length out <= 50)%nat /\
    List.length out = Nat.min 50 (List.length results) /\
    Forall2 (fun r item =>
               SearchItem.name item = CodeResult.name r /\
               SearchItem.path item = CodeResult.path r /\
               SearchItem.repository item = CodeResult.repository_full_name r /\
               SearchItem.url item = CodeResult.html_url r /\
               SearchItem.score item
                 = match CodeResult.score r with
                   | Has v => Some v | Missing => None end /\
               SearchItem.size item
                 = match CodeResult.size r with
                   | Has v => Some v | Missing => None end /\
               SearchItem.language item
                 = match CodeResult.repository_language r with
                   | Has v => v | Missing => None end)
      (firstn 50 results) out.
Proof.
  intros H.
  rewrite search_code_eq, H.
  eexists. split; [reflexivity|].
  rewrite length_map, length_firstn.
  split; [apply Nat.le_min_l|]. split; [reflexivity|].
  apply Forall2_map_same. intros r _. apply format_result_fields.
Qed.

Lemma C5_search_results_capped_witness :
  Github.search_code (github busy_client) (build_search_query "TODO" None None)
    = Ok (map code_result (seq 0 60)) /\
  exists out,
    outcome (search_code busy_client "TODO" None None) = Ok out /\
    List.length out = 50%nat /\
    map SearchItem.name out
      = firstn 50 (map CodeResult.name (map code_result (seq 0 60))) /\
    option_map SearchItem.name (nth_error out 0) = Some "f0" /\
    option_map SearchItem.name (nth_error out 49) = Some "f49".
Proof.
  split; [reflexivity|].
  destruct (C5_search_results_capped busy_client "TODO" None None
              (map code_result (seq 0 60)) eq_refl)
    as [out [Ho [_ [Hlen Hall]]]].
  exists out. split; [exact Ho|].
  split; [exact Hlen|].
  vm_compute in Ho. injection Ho as <-.
  split; [|split]; reflexivity.
Defined.

Lemma truthy_nonempty (s : string) : s <> "" -> truthy (Some s) = true.
Proof. destruct s; [congruence|reflexivity]. Qed.




(** ** Further properties of the client *)

(** *** [get_file_content]: text, placeholder, empty content *)

Lemma file_of_failure self owner repo file_path branch e :
  remote_contents self owner repo file_path branch = Raise e ->
  get_file_content self owner repo file_path branch =
  (lookup_calls self owner repo file_path branch, Raise e).
Proof.
  unfold remote_contents, lookup_calls, get_file_content. py_run.
  destruct (Github.get_repo _ _) as [repo_obj|e0]; intros H.
  - rewrite fetch_contents_eq, H. reflexivity.
  - now injection H as ->.
Qed.

(** X1: a file whose [decoded_content] is valid UTF-8 comes back as its
    text, with the remote size and encoding "utf-8"; the text encodes back
    to exactly the file's bytes, and the base64 text is not decoded. *)
Theorem X1_text_file_content self owner repo file_path branch c bs :
  remote_contents self owner repo file_path branch = Ok (ContentSingle c) ->
  ContentFile.decoded_content c = Has (Some bs) ->
  utf8_valid bs = true ->
  exists text,
    get_file_content self owner repo file_path branch =
    ([GetRepo (owner ++ "/" ++ repo);
      GetContents file_path (effective_ref branch); DecodeUtf8],
     Ok (FileData.mk file_path text (ContentFile.size c) "utf-8")) /\
    list_byte_of_string text = bs.
Proof.
  intros H Hd Hv.
  rewrite (file_of_single _ _ _ _ _ _ H).
  unfold decode_content. rewrite Hd.
  unfold decode_utf8, call, calls, outcome. rewrite Hv. simpl.
  eexists. split; [reflexivity|].
  apply list_byte_of_string_of_list_byte.
Qed.

Lemma X1_text_file_content_witness :
  remote_contents readme_client "octo" "hello-world" "README.md" (Some "dev")
    = Ok (ContentSingle readme) /\
  exists text,
    get_file_content readme_client "octo" "hello-world" "README.md" (Some "dev") =
    ([GetRepo "octo/hello-world"; GetContents "README.md" (Some "dev"); DecodeUtf8],
     Ok (FileData.mk "README.md" text 42 "utf-8")) /\
    list_byte_of_string text = list_byte_of_string "# hello".
Proof.
  split; [reflexivity|].
  apply (X1_text_file_content readme_client "octo" "hello-world" "README.md"
           (Some "dev") readme (list_byte_of_string "# hello"));
    reflexivity.
Defined.

(** What the base64 path computes, by the outcome of the two decoders. *)
Lemma base64_path_cases (c : ContentFile.t) :
  ContentFile.decoded_content c = Missing ->
  exists s,
    outcome (decode_content c) = Ok s /\
    ((ContentFile.content c = Missing /\ s = "") \/
     ((exists x, ContentFile.content c = Has x /\
                 forall bs, outcome (b64decode x) = Ok bs -> utf8_valid bs = false) /\
      s = binary_placeholder (ContentFile.size c)) \/
     (exists t bs,
         ContentFile.content c = Has (Some t) /\
         outcome (b64decode (Some t)) = Ok bs /\
         utf8_valid bs = true /\
         list_byte_of_string s = bs)).
Proof.
  unfold decode_content. intros ->.
  destruct (ContentFile.content c) as [|x].
  { exists "". split; [reflexivity|]. left. now split. }
  destruct (b64decode x) as [l [bs|e]] eqn:Eb.
  - destruct (utf8_valid bs) eqn:Ev.
    + exists (string_of_list_byte bs). split.
      * py_run. unfold decode_utf8, call. now rewrite Ev.
      * right. right.
        destruct x as [t|]; [|unfold b64decode, call in Eb; discriminate].
        exists t, bs. rewrite Eb. repeat split; try assumption.
        apply list_byte_of_string_of_list_byte.
    + exists (binary_placeholder (ContentFile.size c)). split.
      * py_run. unfold decode_utf8, call. now rewrite Ev.
      * right. left. split; [|reflexivity].
        exists x. split; [reflexivity|].
        intros bs' Hb. unfold outcome in Hb. rewrite Eb in Hb.
        injection Hb as <-. exact Ev.
  - exists (binary_placeholder (ContentFile.size c)). split.
    + py_run. now rewrite isinstance_Exception.
    + right. left. split; [|reflexivity].
      exists x. split; [reflexivity|].
      intros bs' Hb. unfold outcome in Hb. rewrite Eb in Hb. discriminate.
Qed.

(** X2: on an object without [decoded_content], [get_file_content] always
    returns a record, and its content is one of three things: the empty
    string when there is no [content] attribute either, the placeholder
    when the base64 text does not decode to UTF-8, or text that encodes
    back to exactly the decoded bytes. *)
Theorem X2_base64_path_text_or_placeholder self owner repo file_path branch c :
  remote_contents self owner repo file_path branch = Ok (ContentSingle c) ->
  ContentFile.decoded_content c = Missing ->
  exists s,
    outcome (get_file_content self owner repo file_path branch)
    = Ok (FileData.mk file_path s (ContentFile.size c) "utf-8") /\
    ((ContentFile.content c = Missing /\ s = "") \/
     ((exists x, ContentFile.content c = Has x /\
                 forall bs, outcome (b64decode x) = Ok bs -> utf8_valid bs = false) /\
      s = binary_placeholder (ContentFile.size c)) \/
     (exists t bs,
         ContentFile.content c = Has (Some t) /\
         outcome (b64decode (Some t)) = Ok bs /\
         utf8_valid bs = true /\
         list_byte_of_string s = bs)).
Proof.
  intros H Hd.
  destruct (base64_path_cases c Hd) as [s [Hs Hcases]].
  exists s. split; [|exact Hcases].
  rewrite (file_of_single _ _ _ _ _ _ H).
  unfold outcome in *. simpl. now rewrite Hs.
Qed.

Lemma X2_base64_path_text_or_placeholder_witness :
  remote_contents logo_base64_client "octo" "hello-world" "logo.png" None
    = Ok (ContentSingle logo_base64) /\
  exists s,
    outcome (get_file_content logo_base64_client "octo" "hello-world" "logo.png" None)
    = Ok (FileData.mk "logo.png" s 4 "utf-8").
Proof.
  split; [reflexivity|].
  destruct (X2_base64_path_text_or_placeholder logo_base64_client
              "octo" "hello-world" "logo.png" None logo_base64 eq_refl eq_refl)
    as [s [Hs _]].
  exists s. exact Hs.
Defined.

(** X3: on an object without [decoded_content], whenever the [content]
    attribute fails to decode to UTF-8 text (it is [None], it is not
    base64, or the decoded bytes are not UTF-8), the call returns the
    placeholder, and the placeholder contains the remote byte size in
    decimal. *)
Theorem X3_base64_path_binary_placeholder self owner repo file_path branch c x :
  remote_contents self owner repo file_path branch = Ok (ContentSingle c) ->
  ContentFile.decoded_content c = Missing ->
  ContentFile.content c = Has x ->
  (forall bs, outcome (b64decode x) = Ok bs -> utf8_valid bs = false) ->
  exists fd,
    outcome (get_file_content self owner repo file_path branch) = Ok fd /\
    FileData.content fd = binary_placeholder (ContentFile.size c) /\
    contains (str_of_int (ContentFile.size c)) (FileData.content fd) = true.
Proof.
  intros H Hd Hc Hbin.
  rewrite (file_of_single _ _ _ _ _ _ H).
  destruct (base64_path_cases c Hd)
    as [s [Hs [[Hm _]|[[_ Hp]|[t [bs [Ht [Hb [Hv _]]]]]]]]].
  - rewrite Hc in Hm. discriminate.
  - unfold outcome in *. simpl. rewrite Hs. eexists. split; [reflexivity|].
    simpl. subst s. split; [reflexivity|apply placeholder_has_size].
  - rewrite Hc in Ht. injection Ht as ->.
    rewrite (Hbin bs Hb) in Hv. discriminate.
Qed.

Lemma X3_base64_path_binary_placeholder_witness :
  remote_contents logo_base64_client "octo" "hello-world" "logo.png" None
    = Ok (ContentSingle logo_base64) /\
  exists fd,
    outcome (get_file_content logo_base64_client "octo" "hello-world" "logo.png" None)
      = Ok fd /\
    FileData.content fd = binary_placeholder 4 /\
    contains (str_of_int 4) (FileData.content fd) = true.
Proof.
  split; [reflexivity|].
  apply (X3_base64_path_binary_placeholder logo_base64_client
           "octo" "hello-world" "logo.png" None logo_base64 (Some "iVBORw=="));
    try reflexivity.
  intros bs Hb. vm_compute in Hb. injection Hb as <-. reflexivity.
Defined.

(** X4: a remote failure during [get_file_content] leaves the call as the
    very exception the remote raised, after the lookups alone; where the
    failure is a [GithubException], [get_repository_structure] on the same
    arguments raises the wrapped "GitHub API error" instead. *)
Theorem X4_file_content_errors_unwrapped self owner repo file_path branch e :
  remote_contents self owner repo file_path branch = Raise e ->
  get_file_content self owner repo file_path branch
    = (lookup_calls self owner repo file_path branch, Raise e) /\
  (isinstance e GithubExceptionC = true ->
   outcome (get_repository_structure self owner repo file_path branch)
     = Raise (api_error e)).
Proof.
  intros H. split.
  - exact (file_of_failure _ _ _ _ _ _ H).
  - intros Hi. rewrite (structure_of_failure _ _ _ _ _ _ H), Hi. reflexivity.
Qed.

Lemma X4_file_content_errors_unwrapped_witness :
  remote_contents (client_serving (fun _ _ => Raise not_found))
    "octo" "hello-world" "nope.txt" None = Raise not_found /\
  get_file_content (client_serving (fun _ _ => Raise not_found))
    "octo" "hello-world" "nope.txt" None
    = ([GetRepo "octo/hello-world"; GetContents "nope.txt" None], Raise not_found) /\
  outcome (get_repository_structure (client_serving (fun _ _ => Raise not_found))
             "octo" "hello-world" "nope.txt" None)
    = Raise (mkExn ExceptionC "GitHub API error: 404 Not Found").
Proof.
  split; [reflexivity|].
  destruct (X4_file_content_errors_unwrapped
              (client_serving (fun _ _ => Raise not_found))
              "octo" "hello-world" "nope.txt" None not_found eq_refl)
    as [Hf Hs].
  split; [exact Hf|].
  apply Hs. reflexivity.
Defined.

(** X5: when [decoded_content] is present but [None], or when the object
    has neither [decoded_content] nor [content], the call returns the empty
    string as content, with the remote size, and calls no decoder. *)
Theorem X5_file_content_empty self owner repo file_path branch c :
  remote_contents self owner repo file_path branch = Ok (ContentSingle c) ->
  ContentFile.decoded_content c = Has None \/
  (ContentFile.decoded_content c = Missing /\ ContentFile.content c = Missing) ->
  get_file_content self owner repo file_path branch
  = ([GetRepo (owner ++ "/" ++ repo); GetContents file_path (effective_ref branch)],
     Ok (FileData.mk file_path "" (ContentFile.size c) "utf-8")).
Proof.
  intros H Hc.
  rewrite (file_of_single _ _ _ _ _ _ H).
  unfold decode_content.
  destruct Hc as [->|[-> ->]]; reflexivity.
Qed.

Lemma X5_file_content_empty_witness :
  remote_contents
    (client_serving (fun _ _ => Ok (ContentSingle
       (ContentFile.mk "big.bin" "big.bin" "file" 2000000 (Has None) (Has None)))))
    "octo" "hello-world" "big.bin" None
  = Ok (ContentSingle
          (ContentFile.mk "big.bin" "big.bin" "file" 2000000 (Has None) (Has None))) /\
  get_file_content
    (client_serving (fun _ _ => Ok (ContentSingle
       (ContentFile.mk "big.bin" "big.bin" "file" 2000000 (Has None) (Has None)))))
    "octo" "hello-world" "big.bin" None
  = ([GetRepo "octo/hello-world"; GetContents "big.bin" None],
     Ok (FileData.mk "big.bin" "" 2000000 "utf-8")).
Proof.
  split; [reflexivity|].
  apply (X5_file_content_empty _ "octo" "hello-world" "big.bin" None
           (ContentFile.mk "big.bin" "big.bin" "file" 2000000 (Has None) (Has None))).
  - reflexivity.
  - left. reflexivity.
Defined.

(** X6: every record [get_file_content] returns, text or placeholder
    alike, is for a single remote object, carries the requested path, that
    object's remote size and the encoding "utf-8". *)
Theorem X6_file_content_record_shape self owner repo file_path branch fd :
  outcome (get_file_content self owner repo file_path branch) = Ok fd ->
  exists c,
    remote_contents self owner repo file_path branch = Ok (ContentSingle c) /\
    FileData.path fd = file_path /\
    FileData.size fd = ContentFile.size c /\
    FileData.encoding fd = "utf-8".
Proof.
  destruct (remote_contents self owner repo file_path branch)
    as [[l|c]|e] eqn:H.
  - rewrite (file_of_directory _ _ _ _ _ _ H). discriminate.
  - rewrite (file_of_single _ _ _ _ _ _ H).
    unfold outcome. simpl.
    destruct (snd (decode_content c)) as [s|e]; [|discriminate].
    intros Hfd. injection Hfd as <-.
    exists c. repeat split.
  - rewrite (file_of_failure _ _ _ _ _ _ H). discriminate.
Qed.

Lemma X6_file_content_record_shape_witness :
  outcome (get_file_content logo_base64_client "octo" "hello-world" "logo.png" None)
    = Ok (FileData.mk "logo.png" (binary_placeholder 4) 4 "utf-8") /\
  exists c,
    remote_contents logo_base64_client "octo" "hello-world" "logo.png" None
      = Ok (ContentSingle c) /\
    FileData.path (FileData.mk "logo.png" (binary_placeholder 4) 4 "utf-8")
      = "logo.png" /\
    FileData.size (FileData.mk "logo.png" (binary_placeholder 4) 4 "utf-8")
      = ContentFile.size c /\
    FileData.encoding (FileData.mk "logo.png" (binary_placeholder 4) 4 "utf-8")
      = "utf-8".
Proof.
  split; [reflexivity|].
  apply (X6_file_content_record_shape logo_base64_client
           "octo" "hello-world" "logo.png" None).
  reflexivity.
Defined.

(** *** Branch selection *)

(** X7: an empty-string branch is treated exactly as no branch by both
    [get_repository_structure] and [get_file_content], and a non-empty
    branch is what the contents lookup receives as its ref whenever the
    repository lookup succeeds. *)
Theorem X7_branch_selection self owner repo path :
  get_repository_structure self owner repo path (Some "")
    = get_repository_structure self owner repo path None /\
  get_file_content self owner repo path (Some "")
    = get_file_content self owner repo path None /\
  (forall branch repo_obj,
      branch <> "" ->
      Github.get_repo (github self) (owner ++ "/" ++ repo) = Ok repo_obj ->
      nth_error (calls (get_repository_structure self owner repo path (Some branch))) 1
        = Some (GetContents path (Some branch)) /\
      nth_error (calls (get_file_content self owner repo path (Some branch))) 1
        = Some (GetContents path (Some branch))).
Proof.
  split; [reflexivity|]. split; [reflexivity|].
  intros branch repo_obj Hb Hr.
  assert (Href : effective_ref (Some branch) = Some branch).
  { unfold effective_ref. now rewrite truthy_nonempty. }
  assert (Hl : lookup_calls self owner repo path (Some branch)
               = [GetRepo (owner ++ "/" ++ repo); GetContents path (Some branch)]).
  { unfold lookup_calls. now rewrite Hr, Href. }
  destruct (remote_contents self owner repo path (Some branch))
    as [[l|c]|e] eqn:H.
  - rewrite (structure_of_directory _ _ _ _ _ _ H),
      (file_of_directory _ _ _ _ _ _ H), Hl, Href.
    split; reflexivity.
  - rewrite (structure_of_file _ _ _ _ _ _ H),
      (file_of_single _ _ _ _ _ _ H), Hl, Href.
    split; reflexivity.
  - rewrite (structure_of_failure _ _ _ _ _ _ H),
      (file_of_failure _ _ _ _ _ _ H), Hl.
    split; reflexivity.
Qed.

Lemma X7_branch_selection_witness :
  nth_error (calls (get_repository_structure root_client
                      "octo" "hello-world" "/" (Some "dev"))) 1
    = Some (GetContents "/" (Some "dev")) /\
  nth_error (calls (get_file_content root_client
                      "octo" "hello-world" "/" (Some "dev"))) 1
    = Some (GetContents "/" (Some "dev")).
Proof.
  apply (proj2 (proj2 (X7_branch_selection root_client "octo" "hello-world" "/"))
           "dev" (sample_repo (fun _ _ => Ok (ContentList root_listing)))).
  - discriminate.
  - reflexivity.
Defined.

(** *** [get_repository_structure]: what escapes, what is listed *)

Lemma api_error_not_github (e : exn) :
  isinstance (api_error e) GithubExceptionC = false.
Proof. reflexivity. Qed.

(** X8: no [GithubException] ever leaves [get_repository_structure]:
    whatever it raises is not an instance of that class. *)
Theorem X8_structure_raises_no_github_exception self owner repo path branch x :
  outcome (get_repository_structure self owner repo path branch) = Raise x ->
  isinstance x GithubExceptionC = false.
Proof.
  destruct (remote_contents self owner repo path branch) as [[l|c]|e] eqn:H.
  - rewrite (structure_of_directory _ _ _ _ _ _ H). discriminate.
  - rewrite (structure_of_file _ _ _ _ _ _ H). discriminate.
  - rewrite (structure_of_failure _ _ _ _ _ _ H).
    unfold outcome. simpl.
    destruct (isinstance e GithubExceptionC) eqn:Hi; intros Hx;
      injection Hx as <-.
    + apply api_error_not_github.
    + exact Hi.
Qed.

Lemma X8_structure_raises_no_github_exception_witness :
  outcome (get_repository_structure (failing_client rate_limited)
             "octo" "hello-world" "/" None)
    = Raise (api_error rate_limited) /\
  isinstance rate_limited GithubExceptionC = true /\
  isinstance (api_error rate_limited) GithubExceptionC = false.
Proof.
  split; [reflexivity|]. split; [reflexivity|].
  apply (X8_structure_raises_no_github_exception (failing_client rate_limited)
           "octo" "hello-world" "/" None).
  reflexivity.
Defined.

(** X9: a directory listing keeps the remote order and copies each
    child's name and path; a child whose remote type is "file" has its
    remote size, a child whose remote type is "dir" has kind "dir". *)
Theorem X9_listing_copies_children self owner repo path branch l :
  remote_contents self owner repo path branch = Ok (ContentList l) ->
  exists out,
    outcome (get_repository_structure self owner repo path branch) = Ok out /\
    Structure.path out = path /\
    map ItemData.name (Structure.items out) = map ContentFile.name l /\
    map ItemData.path (Structure.items out) = map ContentFile.path l /\
    Forall2 (fun item d =>
               (ContentFile.type item = "file" ->
                ItemData.type d = "file" /\
                ItemData.size d = Some (ContentFile.size item)) /\
               (ContentFile.type item = "dir" -> ItemData.type d = "dir"))
      l (Structure.items out).
Proof.
  intros H.
  rewrite (structure_of_directory _ _ _ _ _ _ H).
  eexists. split; [reflexivity|]. simpl.
  split; [reflexivity|].
  split; [|split].
  - rewrite map_map. apply map_ext. intros item. unfold item_data.
    destruct (String.eqb (ContentFile.type item) "file"); reflexivity.
  - rewrite map_map. apply map_ext. intros item. unfold item_data.
    destruct (String.eqb (ContentFile.type item) "file"); reflexivity.
  - apply Forall2_map_same. intros item _.
    rewrite item_data_type, item_data_size.
    split; intros ->; simpl; [split|]; reflexivity.
Qed.

Lemma X9_listing_copies_children_witness :
  remote_contents root_client "octo" "hello-world" "/" None
    = Ok (ContentList root_listing) /\
  exists out,
    outcome (get_repository_structure root_client "octo" "hello-world" "/" None)
      = Ok out /\
    Structure.path out = "/" /\
    map ItemData.name (Structure.items out) = ["README.md"; "src"; "latest"] /\
    map ItemData.path (Structure.items out) = ["README.md"; "src"; "latest"].
Proof.
  split; [reflexivity|].
  destruct (X9_listing_copies_children root_client "octo" "hello-world" "/" None
              root_listing eq_refl) as [out [Ho [Hp [Hn [Hq _]]]]].
  exists out. split; [exact Ho|]. split; [exact Hp|]. split; [exact Hn|exact Hq].
Defined.

(** *** [get_repository_info] and [search_code]: failures and scoping *)

(** X10: when the repository lookup fails, [get_repository_info] raises
    the remote's exception as it is, [GithubException] included, after
    that one call. *)
Theorem X10_repository_info_errors_unwrapped self owner repo e :
  Github.get_repo (github self) (owner ++ "/" ++ repo) = Raise e ->
  get_repository_info self owner repo
  = ([GetRepo (owner ++ "/" ++ repo)], Raise e).
Proof.
  intros H. unfold get_repository_info. py_run. now rewrite H.
Qed.

Lemma X10_repository_info_errors_unwrapped_witness :
  Github.get_repo (github (failing_client not_found)) ("octo" ++ "/" ++ "gone")
    = Raise not_found /\
  get_repository_info (failing_client not_found) "octo" "gone"
  = ([GetRepo "octo/gone"], Raise not_found).
Proof.
  split; [reflexivity|].
  apply (X10_repository_info_errors_unwrapped (failing_client not_found)
           "octo" "gone" not_found).
  reflexivity.
Defined.

(** X11: when the remote search fails, [search_code] raises the remote's
    exception as it is, after the one search call with the scoped
    query. *)
Theorem X11_search_errors_unwrapped self query owner repo e :
  Github.search_code (github self) (build_search_query query owner repo)
    = Raise e ->
  search_code self query owner repo
  = ([SearchCode (build_search_query query owner repo)], Raise e).
Proof.
  intros H. now rewrite search_code_eq, H.
Qed.

Lemma X11_search_errors_unwrapped_witness :
  Github.search_code (github exhausted_client)
    (build_search_query "TODO" (Some "octo") None) = Raise rate_limited /\
  search_code exhausted_client "TODO" (Some "octo") None
  = ([SearchCode "TODO user:octo"], Raise rate_limited).
Proof.
  split; [reflexivity|].
  apply (X11_search_errors_unwrapped exhausted_client "TODO" (Some "octo") None
           rate_limited).
  reflexivity.
Defined.



(** X13: the query sent to the remote search always begins with the
    caller's query, unchanged; scoping only appends to it. *)
Theorem X13_search_query_keeps_prefix self query owner repo :
  exists sent,
    calls (search_code self query owner repo) = [SearchCode sent] /\
    String.prefix query sent = true.
Proof.
  exists (build_search_query query owner repo).
  rewrite search_code_eq. split; [reflexivity|].
  unfold build_search_query.
  destruct (truthy owner && truthy repo); [apply prefix_app|].
  destruct (truthy owner); [apply prefix_app|].
  replace query with (query ++ "") at 2; [apply prefix_app|].
  induction query as [|a q IH]; simpl; [reflexivity|now rewrite IH].
Qed.

(** *** Construction *)

(** X14: a client built with an empty-string token holds the anonymous
    connection, the same as one built with no token, while a non-empty
    token is handed to the connection; the token itself is stored as
    given. *)
Theorem X14_init_token (connect : option string -> Github.t) :
  github (__init__ connect (Some "")) = github (__init__ connect None) /\
  github (__init__ connect None) = connect None /\
  (forall t, t <> "" -> github (__init__ connect (Some t)) = connect (Some t)) /\
  (forall t, token (__init__ connect t) = t).
Proof.
  repeat split.
  intros t Ht. unfold __init__. cbn [github].
  rewrite (truthy_nonempty t) by assumption. reflexivity.
Qed.

Lemma X14_init_token_witness :
  github (__init__ (fun t => github (failing_client
                      (mkExn BadCredentialsExceptionC (fstr t))))
            (Some "ghp_token"))
  = github (failing_client (mkExn BadCredentialsExceptionC "ghp_token")).
Proof.
  apply (proj1 (proj2 (proj2 (X14_init_token
           (fun t => github (failing_client
              (mkExn BadCredentialsExceptionC (fstr t)))))))).
  discriminate.
Defined.

(** *** What is copied, what is called *)

(** X15: each item [search_code] returns copies the name, path, URL and
    repository full name of the remote result at the same position among
    the first 50; its score and size are the remote attribute when the
    result has it and null when it does not; and when the remote gives at
    most 50 results none is dropped. *)
Theorem X15_search_items_copy_results self query owner repo results :
  Github.search_code (github self) (build_search_query query owner repo)
    = Ok results ->
  exists out,
    outcome (search_code self query owner repo) = Ok out /\
    Forall2 (fun r item =>
               SearchItem.name item = CodeResult.name r /\
               SearchItem.path item = CodeResult.path r /\
               SearchItem.url item = CodeResult.html_url r /\
               SearchItem.repository item = CodeResult.repository_full_name r /\
               (CodeResult.score r = Missing -> SearchItem.score item = None) /\
               (forall v, CodeResult.score r = Has v -> SearchItem.score item = Some v) /\
               (CodeResult.size r = Missing -> SearchItem.size item = None) /\
               (forall v, CodeResult.size r = Has v -> SearchItem.size item = Some v) /\
               (CodeResult.repository_language r = Missing ->
                SearchItem.language item = None))
      (firstn 50 results) out /\
    ((List.length results <= 50)%nat ->
     List.length out = List.length results).
Proof.
  intros H.
  rewrite search_code_eq, H.
  eexists. split; [reflexivity|]. split.
  - apply Forall2_map_same. intros r _. unfold format_result. simpl.
    repeat split; try (now intros ->); now intros v ->.
  - intros Hle. now rewrite length_map, firstn_all2.
Qed.

Lemma X15_search_items_copy_results_witness :
  Github.search_code (github busy_client) (build_search_query "TODO" None None)
    = Ok (map code_result (seq 0 60)) /\
  exists out,
    outcome (search_code busy_client "TODO" None None) = Ok out /\
    List.length out = 50%nat /\
    option_map SearchItem.size (nth_error out 49) = Some (Some 49) /\
    option_map SearchItem.score (nth_error out 49) = Some None.
Proof.
  split; [reflexivity|].
  destruct (X15_search_items_copy_results busy_client "TODO" None None
              (map code_result (seq 0 60)) eq_refl) as [out [Ho _]].
  exists out. split; [exact Ho|].
  vm_compute in Ho. injection Ho as <-.
  repeat split.
Defined.

(** X16: when the remote object has a [decoded_content] attribute,
    [get_file_content] never decodes the base64 [content], whether the
    call then succeeds or raises. *)
Theorem X16_decoded_content_takes_priority self owner repo file_path branch c x :
  remote_contents self owner repo file_path branch = Ok (ContentSingle c) ->
  ContentFile.decoded_content c = Has x ->
  existsb (fun k => match k with B64Decode => true | _ => false end)
    (calls (get_file_content self owner repo file_path branch)) = false.
Proof.
  intros H Hd.
  rewrite (file_of_single _ _ _ _ _ _ H).
  unfold decode_content. rewrite Hd.
  destruct x as [bs|]; reflexivity.
Qed.

Lemma X16_decoded_content_takes_priority_witness :
  remote_contents logo_decoded_client "octo" "hello-world" "logo.png" None
    = Ok (ContentSingle logo_decoded) /\
  ContentFile.content logo_decoded = Has (Some "iVBORw==") /\
  existsb (fun k => match k with B64Decode => true | _ => false end)
    (calls (get_file_content logo_decoded_client
              "octo" "hello-world" "logo.png" None)) = false.
Proof.
  split; [reflexivity|]. split; [reflexivity|].
  apply (X16_decoded_content_takes_priority logo_decoded_client
           "octo" "hello-world" "logo.png" None logo_decoded (Some png_bytes));
    reflexivity.
Defined.

(** X17: [get_repository_structure] only ever makes the repository lookup
    and then, if that succeeded, one contents lookup with the requested
    path; when the repository lookup fails the contents lookup is not
    attempted; it never calls a decoder. *)
Theorem X17_structure_calls self owner repo path branch :
  calls (get_repository_structure self owner repo path branch)
    = match Github.get_repo (github self) (owner ++ "/" ++ repo) with
      | Ok _ => [GetRepo (owner ++ "/" ++ repo);
                 GetContents path (effective_ref branch)]
      | Raise _ => [GetRepo (owner ++ "/" ++ repo)]
      end /\
  existsb is_decode (calls (get_repository_structure self owner repo path branch))
    = false.
Proof.
  assert (Hc : calls (get_repository_structure self owner repo path branch)
               = lookup_calls self owner repo path branch).
  { destruct (remote_contents self owner repo path branch) as [[l|c]|e] eqn:H.
    - now rewrite (structure_of_directory _ _ _ _ _ _ H).
    - now rewrite (structure_of_file _ _ _ _ _ _ H).
    - now rewrite (structure_of_failure _ _ _ _ _ _ H). }
  rewrite Hc. unfold lookup_calls.
  destruct (Github.get_repo _ _); split; reflexivity.
Qed.

(** *** [get_repository_info]: the record *)

(** X18: when the repository lookup succeeds and the topics attribute is
    missing or holds a list, [get_repository_info] returns, after that one
    call, a record that copies the name, full name and owner login, renders
    each timestamp as ISO-8601 when the remote value is present and as null
    otherwise, and has the remote's topics, or the empty sequence when the
    attribute is missing. *)
Theorem X18_repository_info_record self owner repo repo_obj :
  Github.get_repo (github self) (owner ++ "/" ++ repo) = Ok repo_obj ->
  Repository.topics repo_obj <> Has None ->
  exists info,
    get_repository_info self owner repo
      = ([GetRepo (owner ++ "/" ++ repo)], Ok info) /\
    RepoInfo.name info = Repository.name repo_obj /\
    RepoInfo.full_name info = Repository.full_name repo_obj /\
    RepoInfo.owner info = Repository.owner_login repo_obj /\
    RepoInfo.created_at info
      = match Repository.created_at repo_obj with
        | Some d => Some (isoformat d) | None => None end /\
    RepoInfo.updated_at info
      = match Repository.updated_at repo_obj with
        | Some d => Some (isoformat d) | None => None end /\
    RepoInfo.pushed_at info
      = match Repository.pushed_at repo_obj with
        | Some d => Some (isoformat d) | None => None end /\
    (Repository.topics repo_obj = Missing -> RepoInfo.topics info = []) /\
    (forall ts, Repository.topics repo_obj = Has (Some ts) ->
                RepoInfo.topics info = ts).
Proof.
  intros H Ht.
  unfold get_repository_info, list_. py_run. rewrite H.
  destruct (Repository.topics repo_obj) as [|[ts|]] eqn:E;
    [| |now contradiction Ht]; simpl;
    (eexists; split; [reflexivity|]; simpl; repeat split;
     try discriminate; intros ts' Hts; now injection Hts).
Qed.

Lemma X18_repository_info_record_witness :
  Github.get_repo (github (client_of_repo topical_repo)) ("octo" ++ "/" ++ "hello-world")
    = Ok topical_repo /\
  exists info,
    get_repository_info (client_of_repo topical_repo) "octo" "hello-world"
      = ([GetRepo "octo/hello-world"], Ok info) /\
    RepoInfo.owner info = "octo" /\
    RepoInfo.created_at info = None /\
    RepoInfo.updated_at info = Some "2020-02-29T23:59:59+01:00" /\
    RepoInfo.topics info = ["proofs"; "github"].
Proof.
  split; [reflexivity|].
  destruct (X18_repository_info_record (client_of_repo topical_repo)
              "octo" "hello-world" topical_repo eq_refl)
    as [info [Hi [_ [_ [Ho [Hc [Hu [_ [_ Ht]]]]]]]]].
  - discriminate.
  - exists info. split; [exact Hi|]. split; [exact Ho|].
    split; [exact Hc|]. split; [exact Hu|].
    apply Ht. reflexivity.
Defined.
